(** * ServiceNow alert service (services/servicenow/service.go)

    A shallow embedding of the request-preparation pipeline and of the
    transport step of the ServiceNow event handler, with the properties
    of its specification stated and proved over the embedding.

    Go strings are byte sequences: they are modelled by [string], whose
    characters are 8-bit.  Go's [int] is modelled by [Z]. *)

From Stdlib Require Import ZArith Lia Ascii String DecimalString.
From stdpp Require Import base gmap strings list.

Local Open Scope Z_scope.

(** * Go values and outcomes *)

(** An [error] is modelled by its message (what [Error()] returns). *)
Definition error := string.

(** The outcome of a Go call: a value, a returned error, or a run-time
    panic. *)
Inductive result (A : Type) : Type :=
| Ok (a : A)
| Err (e : error)
| Panic (msg : string).
Arguments Ok {A} a.
Arguments Err {A} e.
Arguments Panic {A} msg.

(** [len(s)] *)
Definition len (s : string) : Z := Z.of_nat (String.length s).

(** The first [n] bytes of [s] (all of [s] when it is shorter). *)
Fixpoint prefix (n : nat) (s : string) : string :=
  match n, s with
  | O, _ => EmptyString
  | S _, EmptyString => EmptyString
  | S n', String c s' => String c (prefix n' s')
  end.

(** [text[:n]] : a slice expression panics when the bound is negative or
    exceeds the length. *)
Definition slice_to (text : string) (n : Z) : result string :=
  if (0 <=? n) && (n <=? len text)
  then Ok (prefix (Z.to_nat n) text)
  else Panic "slice bounds out of range".

(** ** Conversions between [int] and [float64]

    [float64(n)] for an integer [n]: the nearest value with a 53-bit
    significand, ties to even.  The result is again an integer, so the
    float is represented by the integer it denotes. *)
Definition float64 (n : Z) : Z :=
  let a := Z.abs n in
  if a <? 2 ^ 53 then n
  else
    let e := Z.log2 a - 52 in
    let q := a / 2 ^ e in
    let r := a mod 2 ^ e in
    let half := 2 ^ (e - 1) in
    let q' := if r <? half then q
              else if half <? r then q + 1
              else if Z.even q then q else q + 1 in
    Z.sgn n * (q' * 2 ^ e).

Definition minInt : Z := - 2 ^ 63.
Definition maxInt : Z := 2 ^ 63 - 1.

(** [int(f)] for an integer-valued float.  Outside the range of [int] the
    Go specification leaves the result to the implementation; amd64
    yields the smallest [int]. *)
Definition int (f : Z) : Z :=
  if (minInt <=? f) && (f <=? maxInt) then f else minInt.

(** [math.Min] on floats that are neither NaN nor infinite. *)
Definition math_Min (x y : Z) : Z := Z.min x y.

(** * The field truncator *)

Definition usualCutoff : Z := 100.

(** The [cutoff] closure of [preparePost]. *)
Definition cutoff (text : string) (max : Z) : result string :=
  slice_to text (int (math_Min (float64 max) (float64 (len text)))).


(** * Library functions used by the service *)

(** [strconv.Itoa], also the [%d] verb of [fmt]. *)
Definition itoa (n : Z) : string := NilZero.string_of_int (Z.to_int n).

(** The double-quote character. *)
Definition dquote : string := String "034"%char EmptyString.

(** [base64.StdEncoding.EncodeToString] (RFC 4648, with padding). *)
Definition base64_alphabet : string :=
  "ABCDEFGHIJKLMNOPQRSTUVWXYZabcdefghijklmnopqrstuvwxyz0123456789+/".

Definition sextet (n : N) : ascii :=
  match String.get (N.to_nat (n mod 64)%N) base64_alphabet with
  | Some c => c
  | None => "="%char
  end.

Fixpoint base64 (s : string) : string :=
  match s with
  | EmptyString => EmptyString
  | String a EmptyString =>
      let n := (N_of_ascii a * 65536)%N in
      String (sextet (n / 262144)) (String (sextet (n / 4096)) "==")
  | String a (String b EmptyString) =>
      let n := (N_of_ascii a * 65536 + N_of_ascii b * 256)%N in
      String (sextet (n / 262144)) (String (sextet (n / 4096))
        (String (sextet (n / 64)) "="))
  | String a (String b (String c rest)) =>
      let n := (N_of_ascii a * 65536 + N_of_ascii b * 256 + N_of_ascii c)%N in
      String (sextet (n / 262144)) (String (sextet (n / 4096))
        (String (sextet (n / 64)) (String (sextet n) (base64 rest))))
  end.

(** [http.Header]: a map from header names to their values. *)
Definition Header_Add (h : gmap string (list string)) (key value : string)
  : gmap string (list string) :=
  <[key := default [] (h !! key) ++ [value]]> h.

Definition Header_Set (h : gmap string (list string)) (key value : string)
  : gmap string (list string) :=
  <[key := [value]]> h.

(** The bytes that every version of [encoding/json] copies unchanged into
    a string literal: printable ASCII other than the quote, the backslash
    and the three characters escaped for HTML. *)
Definition json_plain_byte (c : ascii) : bool :=
  let n := N_of_ascii c in
  (32 <=? n)%N && (n <=? 126)%N &&
  negb ((n =? 34) || (n =? 92) || (n =? 60) || (n =? 62) || (n =? 38))%N.

Fixpoint json_plain (s : string) : bool :=
  match s with
  | EmptyString => true
  | String c s' => json_plain_byte c && json_plain s'
  end.

(** * Data model *)

(** Modelled from the spec: the [Config] struct, declared next to the
    service in a file of its own (section 3, Configuration). *)
Module Config.
Record t : Type := {
  Enabled : bool;
  URL : string;
  Username : string;
  Password : string;
  Source : string;
  Global : bool;
  StateChangesOnly : bool
}.
End Config.

(** The field [Type] of [HandlerConfig] and of [Alert] is written
    [Type_]. *)
Module HandlerConfig.
Record t : Type := {
  URL : string;
  Username : string;
  Password : string;
  Source : string;
  Node : string;
  Type_ : string;
  Resource : string;
  MetricName : string;
  MessageKey : string
}.
End HandlerConfig.

(** The [Alert] struct, the body of the POST. *)
Module Alert.
Record t : Type := {
  Source : string;
  Node : string;
  Type_ : string;
  Resource : string;
  MetricName : string;
  MessageKey : string;
  Severity : string;
  Description : string
}.
End Alert.

(** [http.Request], as far as the service fills it in ([Url] is its field
    [URL]), and [http.Response], as far as it reads it: the status code
    and what [ioutil.ReadAll] gives on the body (the bytes read and the
    error, if any). *)
Module Request.
Record t (URL : Type) : Type := {
  Method : string;
  Url : URL;
  Header : gmap string (list string);
  Body : string
}.
Arguments Method {URL} _.
Arguments Url {URL} _.
Arguments Header {URL} _.
Arguments Body {URL} _.
End Request.

Module Response.
Record t : Type := {
  StatusCode : Z;
  Body : string * option error
}.
End Response.

Definition StatusCreated : Z := 201.

(** The local [response] struct of [Alert]. *)
Module response.
Record t : Type := { Error : string }.
End response.

(** Modelled from the spec: [alert.EventData], declared in the alert
    package (section 3, EventData); the fields the service reads.  [any] is
    the type of the values an [interface{}] of the event fields can hold. *)
Module EventData.
Record t (any : Type) : Type := {
  Name : string;
  TaskName : string;
  Fields : gmap string any;
  Tags : gmap string string
}.
Arguments Name {any} _.
Arguments TaskName {any} _.
Arguments Fields {any} _.
Arguments Tags {any} _.
End EventData.

(** The context the templates are executed against. *)
Module dataInfo.
Record t (any : Type) : Type := {
  ID : string;
  Name : string;
  TaskName : string;
  Fields : gmap string any;
  Tags : gmap string string
}.
Arguments ID {any} _.
Arguments Name {any} _.
Arguments TaskName {any} _.
Arguments Fields {any} _.
Arguments Tags {any} _.
End dataInfo.

(** * The platform around the service

    What the service takes from the alert package and from the Go
    libraries whose behaviour is not fixed by this file: the level
    constants, the template engine, URL parsing, the JSON codec and the
    network. *)
Class Platform : Type := {
  (** [alert.Level] is an integer type; its constants are distinct. *)
  OK : Z;
  Info : Z;
  Warning : Z;
  Critical : Z;
  levels_distinct : NoDup [OK; Info; Warning; Critical];
  (** the values an [interface{}] of the event fields can hold *)
  any : Type;
  (** [text/template]: [New(name).Parse(text)], and [Execute], which
      gives the bytes it wrote to the writer and its error. *)
  Template : Type;
  template_Parse :
    string -> string -> error + Template;
  template_Execute : Template -> dataInfo.t any -> string * option error;
  (** [net/url] *)
  URL : Type;
  url_Parse : string -> error + URL;
  url_String : URL -> string;
  (** [encoding/json]: the literal written for a Go string, and the effect
      of [Decode] on a struct whose only field is [Error string] tagged
      [error]: the string stored in the field, if one is, and the error
      returned. *)
  json_string : string -> string;
  json_string_plain :
    forall s, json_plain s = true -> json_string s = dquote +:+ s +:+ dquote;
  json_Decode : string -> option string * option error;
  (** [http.Client.Do]: the network's answer to a request. *)
  client_Do : Request.t URL -> error + Response.t
}.

(** * Effects

    A call either returns a value, returns an error or panics, and leaves
    a trace of what it asked of the platform. *)
Inductive Event `{Platform} : Type :=
| TemplateParsed (name text : string)
| TemplateExecuted (name : string)
| RequestSent (req : Request.t URL).

Definition M `{Platform} (A : Type) : Type :=
  list Event -> result A * list Event.

Definition ret `{Platform} {A} (a : A) : M A := fun t => (Ok a, t).

Definition fail `{Platform} {A} (e : error) : M A := fun t => (Err e, t).

Definition bind `{Platform} {A B} (m : M A) (k : A -> M B) : M B :=
  fun t =>
    match m t with
    | (Ok a, t') => k a t'
    | (Err e, t') => (Err e, t')
    | (Panic p, t') => (Panic p, t')
    end.

Definition emit `{Platform} (ev : Event) : M unit :=
  fun t => (Ok tt, t ++ [ev]).

(** A panicking or failing pure computation, in [M]. *)
Definition lift `{Platform} {A} (r : result A) : M A := fun t => (r, t).

(** A library call that returns a value or an error. *)
Definition call `{Platform} {A} (r : error + A) : M A :=
  match r with
  | inl e => fail e
  | inr a => ret a
  end.

#[export] Instance M_ret `{Platform} : MRet M := @ret _.
#[export] Instance M_bind `{Platform} : MBind M :=
  fun A B (k : A -> M B) (m : M A) => bind m k.

(** * The service *)

Section Service.
Context `{Platform}.

Record Service : Type := { configValue : Config.t }.

Definition NewService (c : Config.t) : Service := {| configValue := c |}.

Definition Service_config (s : Service) : Config.t := configValue s.

(** A value of type [interface{}], as [Update] tells them apart: a
    [Config], or a value of another dynamic type, given by the name that
    [%T] prints for it. *)
Inductive interface : Type :=
| of_Config (c : Config.t)
| of_other (T : string).

Definition Service_Update (s : Service) (newConfig : list interface)
  : result unit * Service :=
  let l := Z.of_nat (length newConfig) in
  if negb (l =? 1) then
    (Err ("expected only one new config object, got " +:+ itoa l), s)
  else
    match newConfig with
    | [] => (Panic "index out of range", s)
    | of_other T :: _ =>
        (Err ("expected config object to be of type servicenow.Config, got "
              +:+ T), s)
    | of_Config c :: _ => (Ok tt, {| configValue := c |})
    end.

Definition Service_Global (s : Service) : bool :=
  Config.Global (Service_config s).

Definition Service_StateChangesOnly (s : Service) : bool :=
  Config.StateChangesOnly (Service_config s).

(** The severity switch of [preparePost]; [OK] falls through to [Info]. *)
Definition severity (level : Z) : Z :=
  if level =? OK then 5
  else if level =? Info then 5
  else if level =? Warning then 4
  else if level =? Critical then 1
  else 0.

(** The [render] closure of [preparePost].  The buffer it shares with
    its other calls is passed in and handed back.  The value that
    [Execute] returns is dropped: the [err] tested after it is still the
    one of [Parse], which is nil there. *)
Definition render (dataInfo : dataInfo.t any) (buffer : string)
    (name template : string) : M (string * string) :=
  if negb (String.eqb template "") then
    let buffer := "" in
    emit (TemplateParsed name template) ;;
    templateImpl ← call (template_Parse name template) ;
    emit (TemplateExecuted name) ;;
    let '(written, _) := template_Execute templateImpl dataInfo in
    let buffer := buffer +:+ written in
    ret (buffer, buffer)
  else ret (buffer, "").

(** [preparePost] up to the construction of [instance]. *)
Definition prepareInstance (s : Service) (url alertID message : string)
    (level : Z) (data : EventData.t any) (hc : HandlerConfig.t)
  : M (URL * Alert.t) :=
  let c := Service_config s in
  if negb (Config.Enabled c) then fail "service is not enabled"
  else
    let url := if String.eqb url "" then Config.URL c else url in
    u ← call (url_Parse url) ;
    let source := HandlerConfig.Source hc in
    let source := if String.eqb source "" then Config.Source c else source in
    let buffer := "" in
    let dataInfo :=
      {| dataInfo.ID := alertID;
         dataInfo.Name := EventData.Name data;
         dataInfo.TaskName := EventData.TaskName data;
         dataInfo.Fields := EventData.Fields data;
         dataInfo.Tags := EventData.Tags data |} in
    '(buffer, node) ←
      render dataInfo buffer "node" (HandlerConfig.Node hc) ;
    '(buffer, metricType) ←
      render dataInfo buffer "type" (HandlerConfig.Type_ hc) ;
    '(buffer, resource) ←
      render dataInfo buffer "resource" (HandlerConfig.Resource hc) ;
    '(buffer, metricName) ←
      render dataInfo buffer "metricName" (HandlerConfig.MetricName hc) ;
    '(buffer, messageKey) ←
      render dataInfo buffer "messageKey" (HandlerConfig.MessageKey hc) ;
    let messageKey :=
      if String.eqb messageKey "" then alertID else messageKey in
    let severity := severity level in
    Source ← lift (cutoff source usualCutoff) ;
    Node ← lift (cutoff node usualCutoff) ;
    Type_ ← lift (cutoff metricType usualCutoff) ;
    Resource ← lift (cutoff resource usualCutoff) ;
    MetricName ← lift (cutoff metricName usualCutoff) ;
    MessageKey ← lift (cutoff messageKey 1024) ;
    Description ← lift (cutoff message 4000) ;
    ret (u, {| Alert.Source := Source;
               Alert.Node := Node;
               Alert.Type_ := Type_;
               Alert.Resource := Resource;
               Alert.MetricName := MetricName;
               Alert.MessageKey := MessageKey;
               Alert.Severity := itoa severity;
               Alert.Description := Description |}).

(** [json.Marshal] of an [Alert]: an object with the members in the
    order of the fields, named by their tags.  It has no error for a
    struct of strings. *)
Definition json_member (key value : string) : string :=
  dquote +:+ key +:+ dquote +:+ ":" +:+ json_string value.

Definition json_Marshal (a : Alert.t) : error + string :=
  inr ("{" +:+ json_member "source" (Alert.Source a)
       +:+ "," +:+ json_member "node" (Alert.Node a)
       +:+ "," +:+ json_member "type" (Alert.Type_ a)
       +:+ "," +:+ json_member "resource" (Alert.Resource a)
       +:+ "," +:+ json_member "metric_name" (Alert.MetricName a)
       +:+ "," +:+ json_member "message_key" (Alert.MessageKey a)
       +:+ "," +:+ json_member "severity" (Alert.Severity a)
       +:+ "," +:+ json_member "description" (Alert.Description a)
       +:+ "}").

(** [errors.Wrap] *)
Definition errors_Wrap (err : error) (message : string) : error :=
  message +:+ ": " +:+ err.

Definition Service_preparePost (s : Service) (url alertID message : string)
    (level : Z) (data : EventData.t any) (hc : HandlerConfig.t)
  : M (string * string) :=
  '(u, instance) ← prepareInstance s url alertID message level data hc ;
  postBytes ←
    match json_Marshal instance with
    | inl err => fail (errors_Wrap err "error marshaling alert struct")
    | inr postBytes => ret postBytes
    end ;
  ret (url_String u, postBytes).

(** [http.NewRequest]: the URL is parsed again; the method is valid. *)
Definition http_NewRequest (method url body : string)
  : error + Request.t URL :=
  match url_Parse url with
  | inl err => inl err
  | inr u =>
      inr {| Request.Method := method; Request.Url := u;
             Request.Header := ∅; Request.Body := body |}
  end.

Definition Request_Header_Add (req : Request.t URL) (key value : string)
  : Request.t URL :=
  {| Request.Method := Request.Method req; Request.Url := Request.Url req;
     Request.Header := Header_Add (Request.Header req) key value;
     Request.Body := Request.Body req |}.

(** [Request.SetBasicAuth] *)
Definition basicAuth (username password : string) : string :=
  base64 (username +:+ ":" +:+ password).

Definition SetBasicAuth (req : Request.t URL) (username password : string)
  : Request.t URL :=
  {| Request.Method := Request.Method req; Request.Url := Request.Url req;
     Request.Header :=
       Header_Set (Request.Header req) "Authorization"
                  ("Basic " +:+ basicAuth username password);
     Request.Body := Request.Body req |}.

(** The message [Alert] starts from when the status is not 201. *)
Definition not_understood (StatusCode : Z) (body : string) : string :=
  "failed to understand ServiceNow response. code: " +:+ itoa StatusCode
  +:+ " content: " +:+ body.

(** [Alert], in the three steps it takes: the request is built, it is
    sent, and the response is interpreted.  [Alert] returns an error
    ([Err]) or nil ([Ok tt]). *)
Definition Alert_request (s : Service) (url alertID message : string)
    (level : Z) (data : EventData.t any) (hc : HandlerConfig.t)
  : M (Request.t URL) :=
  '(postUrl, post) ←
    Service_preparePost s url alertID message level data hc ;
  req ← call (http_NewRequest "POST" postUrl post) ;
  let req := Request_Header_Add req "Content-Type" "application/json" in
  let c := Service_config s in
  let req :=
    if negb (String.eqb (Config.Username c) "")
       && negb (String.eqb (Config.Password c) "")
    then SetBasicAuth req (Config.Username c) (Config.Password c)
    else req in
  ret req.

Definition Alert_response (resp : Response.t) : M unit :=
  if negb (Response.StatusCode resp =? StatusCreated) then
    match Response.Body resp with
    | (_, Some err) => fail err
    | (body, None) =>
        let r :=
          {| response.Error :=
               not_understood (Response.StatusCode resp) body |} in
        let r :=
          match fst (json_Decode body) with
          | Some decoded => {| response.Error := decoded |}
          | None => r
          end in
        fail (response.Error r)
    end
  else ret tt.

Definition Service_Alert (s : Service) (url alertID message : string)
    (level : Z) (data : EventData.t any) (hc : HandlerConfig.t) : M unit :=
  req ← Alert_request s url alertID message level data hc ;
  emit (RequestSent req) ;;
  resp ← call (client_Do req) ;
  Alert_response resp.

(** ** Notions the properties are stated with *)

(** The requests of a trace. *)
Fixpoint requests (t : list Event) : list (Request.t URL) :=
  match t with
  | [] => []
  | RequestSent req :: t' => req :: requests t'
  | _ :: t' => requests t'
  end.

(** The five templates of an override, with the names [preparePost]
    gives them, in the order it renders them. *)
Definition templates (hc : HandlerConfig.t) : list (string * string) :=
  [ ("node", HandlerConfig.Node hc);
    ("type", HandlerConfig.Type_ hc);
    ("resource", HandlerConfig.Resource hc);
    ("metricName", HandlerConfig.MetricName hc);
    ("messageKey", HandlerConfig.MessageKey hc) ].

(** The error a template has when it is not empty and does not compile. *)
Definition compile_error (nt : string * string) : option error :=
  if String.eqb nt.2 "" then None
  else match template_Parse nt.1 nt.2 with
       | inl e => Some e
       | inr _ => None
       end.

Fixpoint first_error (l : list (string * string)) : option error :=
  match l with
  | [] => None
  | nt :: l' =>
      match compile_error nt with
      | Some e => Some e
      | None => first_error l'
      end
  end.

(** A computation is quiet when it sends no request. *)
Definition quiet {A} (m : M A) : Prop :=
  forall t r t', m t = (r, t') -> requests t' = requests t.

(** The context [preparePost] executes the templates against. *)
Definition context (alertID : string) (data : EventData.t any)
  : dataInfo.t any :=
  {| dataInfo.ID := alertID;
     dataInfo.Name := EventData.Name data;
     dataInfo.TaskName := EventData.TaskName data;
     dataInfo.Fields := EventData.Fields data;
     dataInfo.Tags := EventData.Tags data |}.


End Service.

(** * A platform to run the service on

    Small stand-ins for the libraries and the network, on which the
    examples below are evaluated: a template engine for literal text and
    field actions, a URL parser that refuses control characters, a JSON
    codec for plain strings and a server with four endpoints. *)
Module Sample.

(** Templates: literal text and actions of the form [{{.Field}}]. *)
Inductive node : Type :=
| Text (s : string)
| Field (name : string).

Definition is_ident_byte (c : ascii) : bool :=
  let n := N_of_ascii c in
  ((65 <=? n) && (n <=? 90) || (97 <=? n) && (n <=? 122)
   || (48 <=? n) && (n <=? 57) || (n =? 95))%N.

Fixpoint is_ident (s : string) : bool :=
  match s with
  | EmptyString => true
  | String c s' => is_ident_byte c && is_ident s'
  end.

Definition action (a : string) : error + node :=
  match a with
  | String "." (String c a') =>
      if is_ident (String c a') then inr (Field (String c a'))
      else inl "template: bad character in action"
  | _ => inl "template: missing value for command"
  end.

Definition flush (text : string) (nodes : list node) : list node :=
  if String.eqb text "" then nodes else nodes ++ [Text text].

(** [scan s text act nodes]: [text] is the literal read so far, [act]
    the action being read, if one is open. *)
Fixpoint scan (s : string) (text : string) (act : option string)
    (nodes : list node) : error + list node :=
  match s, act with
  | EmptyString, None => inr (flush text nodes)
  | EmptyString, Some _ => inl "template: unclosed action"
  | String "{" (String "{" s'), None =>
      scan s' "" (Some "") (flush text nodes)
  | String c s', None => scan s' (text +:+ String c "") None nodes
  | String "}" (String "}" s'), Some a =>
      match action a with
      | inl e => inl e
      | inr n => scan s' "" None (nodes ++ [n])
      end
  | String c s', Some a => scan s' text (Some (a +:+ String c "")) nodes
  end.

Definition parse (name text : string) : error + list node :=
  scan text "" None [].

Fixpoint execute (t : list node) (d : dataInfo.t Z) : string * option error :=
  match t with
  | [] => ("", None)
  | Text s :: t' => let '(w, e) := execute t' d in (s +:+ w, e)
  | Field f :: t' =>
      let value :=
        if String.eqb f "ID" then Some (dataInfo.ID d)
        else if String.eqb f "Name" then Some (dataInfo.Name d)
        else if String.eqb f "TaskName" then Some (dataInfo.TaskName d)
        else None in
      match value with
      | Some v => let '(w, e) := execute t' d in (v +:+ w, e)
      | None => ("", Some ("can't evaluate field " +:+ f))
      end
  end.

(** URLs: any string without a control character, kept as it is. *)
Definition is_control (c : ascii) : bool :=
  let n := N_of_ascii c in ((n <? 32) || (n =? 127))%N.

Fixpoint has_control (s : string) : bool :=
  match s with
  | EmptyString => false
  | String c s' => is_control c || has_control s'
  end.

Definition url_parse (s : string) : error + string :=
  if has_control s then inl "net/url: invalid control character in URL"
  else inr s.

(** JSON: the quote and the backslash are escaped. *)
Fixpoint escape (s : string) : string :=
  match s with
  | EmptyString => EmptyString
  | String c s' =>
      if ((N_of_ascii c =? 34) || (N_of_ascii c =? 92))%N
      then String "\" (String c (escape s'))
      else String c (escape s')
  end.

Definition quote (s : string) : string := dquote +:+ escape s +:+ dquote.

Fixpoint strip (p s : string) : option string :=
  match p, s with
  | EmptyString, _ => Some s
  | String a p', String b s' => if Ascii.eqb a b then strip p' s' else None
  | String _ _, EmptyString => None
  end.

(** The decoder reads an object with the one member [error], a plain
    string, or the empty object. *)
Definition decode (body : string) : option string * option error :=
  if String.eqb body "{}" then (None, None)
  else
    match
      strip ("{" +:+ dquote +:+ "error" +:+ dquote +:+ ":" +:+ dquote) body
    with
    | Some rest =>
        let n := (String.length rest - 2)%nat in
        if String.eqb (String.substring n 2 rest) (dquote +:+ "}")
           && json_plain (prefix n rest)
        then (Some (prefix n rest), None)
        else (None, Some "invalid character in string literal")
    | None => (None, Some "invalid character looking for beginning of value")
    end.

(** The server: one endpoint that accepts the event and three that
    refuse it, each in its own way. *)
Definition serve (req : Request.t string) : error + Response.t :=
  let u := Request.Url req in
  if String.eqb u "https://sn.example/api" then
    inr {| Response.StatusCode := 201; Response.Body := ("", None) |}
  else if String.eqb u "https://sn.example/refused" then
    inr {| Response.StatusCode := 500;
           Response.Body :=
             ("{" +:+ quote "error" +:+ ":" +:+ quote "bad request" +:+ "}",
              None) |}
  else if String.eqb u "https://sn.example/oops" then
    inr {| Response.StatusCode := 500; Response.Body := ("oops", None) |}
  else if String.eqb u "https://sn.example/reset" then
    inr {| Response.StatusCode := 502;
           Response.Body := ("{", Some "unexpected EOF") |}
  else inl "dial tcp: no such host".

Lemma levels_0123 : NoDup [0; 1; 2; 3].
Proof. apply (bool_decide_unpack _). reflexivity. Qed.

Lemma quote_plain s :
  json_plain s = true -> quote s = dquote +:+ s +:+ dquote.
Proof.
  intros Hs. unfold quote. f_equal. f_equal.
  induction s as [|c s IH]; simpl in *; [reflexivity|].
  apply andb_prop in Hs as [Hc Hs]. rewrite (IH Hs).
  unfold json_plain_byte in Hc. apply andb_prop in Hc as [_ Hc].
  apply negb_true_iff in Hc.
  destruct (N_of_ascii c =? 34)%N, (N_of_ascii c =? 92)%N;
    simpl in *; try discriminate; reflexivity.
Qed.

Definition platform : Platform :=
  {| OK := 0; Info := 1; Warning := 2; Critical := 3;
     levels_distinct := levels_0123;
     any := Z;
     Template := list node;
     template_Parse := parse;
     template_Execute := execute;
     URL := string;
     url_Parse := url_parse;
     url_String := fun u => u;
     json_string := quote;
     json_string_plain := quote_plain;
     json_Decode := decode;
     client_Do := serve |}.

(** The values of the examples. *)
Definition config : Config.t :=
  {| Config.Enabled := true; Config.URL := "https://sn.example/api";
     Config.Username := ""; Config.Password := "";
     Config.Source := "cfg-src";
     Config.Global := false; Config.StateChangesOnly := false |}.

Definition no_override : HandlerConfig.t :=
  {| HandlerConfig.URL := ""; HandlerConfig.Username := "";
     HandlerConfig.Password := ""; HandlerConfig.Source := "";
     HandlerConfig.Node := ""; HandlerConfig.Type_ := "";
     HandlerConfig.Resource := ""; HandlerConfig.MetricName := "";
     HandlerConfig.MessageKey := "" |}.

Definition data : EventData.t Z :=
  {| EventData.Name := "cpu"; EventData.TaskName := "cpu_alert";
     EventData.Fields := ∅; EventData.Tags := ∅ |}.

(** JSON text written with single quotes for the double ones. *)
Fixpoint json_text (s : string) : string :=
  match s with
  | EmptyString => EmptyString
  | String c s' =>
      String (if Ascii.eqb c "'" then "034"%char else c) (json_text s')
  end.

(** A string of [n] letters. *)
Fixpoint letters (n : nat) : string :=
  match n with
  | O => EmptyString
  | S n' => String "a" (letters n')
  end.

(** An override whose resource template does not compile. *)
Definition unclosed_resource : HandlerConfig.t :=
  {| HandlerConfig.URL := ""; HandlerConfig.Username := "";
     HandlerConfig.Password := ""; HandlerConfig.Source := "";
     HandlerConfig.Node := "{{.Name}}"; HandlerConfig.Type_ := "";
     HandlerConfig.Resource := "{{.ID"; HandlerConfig.MetricName := "";
     HandlerConfig.MessageKey := "" |}.


(** An override that carries credentials. *)
Definition with_credentials : HandlerConfig.t :=
  {| HandlerConfig.URL := ""; HandlerConfig.Username := "alice";
     HandlerConfig.Password := "secret"; HandlerConfig.Source := "";
     HandlerConfig.Node := ""; HandlerConfig.Type_ := "";
     HandlerConfig.Resource := ""; HandlerConfig.MetricName := "";
     HandlerConfig.MessageKey := "" |}.

(** An override whose node template compiles and fails when executed. *)
Definition missing_field : HandlerConfig.t :=
  {| HandlerConfig.URL := ""; HandlerConfig.Username := "";
     HandlerConfig.Password := ""; HandlerConfig.Source := "";
     HandlerConfig.Node := "{{.Name}}-{{.Missing}}";
     HandlerConfig.Type_ := "";
     HandlerConfig.Resource := ""; HandlerConfig.MetricName := "";
     HandlerConfig.MessageKey := "" |}.

End Sample.

(** * Facts about strings *)

Lemma len_nonneg s : 0 <= len s.
Proof. unfold len. lia. Qed.


Lemma prefix_all n s : (String.length s <= n)%nat -> prefix n s = s.
Proof.
  revert s. induction n as [|n IH]; intros [|c s]; simpl; intros Hn;
    try reflexivity; try lia.
  f_equal. apply IH. lia.
Qed.



(** * Facts about the conversions *)

Lemma float64_exact n : Z.abs n < 2 ^ 53 -> float64 n = n.
Proof.
  intros Hn. unfold float64.
  destruct (Z.ltb_spec (Z.abs n) (2 ^ 53)); [reflexivity | lia].
Qed.

Lemma float64_large n : 2 ^ 53 <= n -> 2 ^ 53 <= float64 n.
Proof.
  intros Hn. unfold float64.
  assert (Ha : Z.abs n = n) by lia. rewrite Ha.
  destruct (Z.ltb_spec n (2 ^ 53)) as [Hlt|_]; [lia|].
  assert (Hs : Z.sgn n = 1) by (apply Z.sgn_pos; lia). rewrite Hs, Z.mul_1_l.
  assert (Hl : 53 <= Z.log2 n) by (apply Z.log2_le_pow2; lia).
  set (e := Z.log2 n - 52).
  assert (He : 0 < e) by (unfold e; lia).
  assert (Hp : 0 < 2 ^ e) by (apply Z.pow_pos_nonneg; lia).
  assert (Hlow : 2 ^ 52 * 2 ^ e <= n).
  { rewrite <- Z.pow_add_r by lia.
    replace (52 + e) with (Z.log2 n) by (unfold e; lia).
    apply Z.log2_spec. lia. }
  assert (Hq : 2 ^ 52 <= n / 2 ^ e).
  { apply Z.div_le_lower_bound; lia. }
  assert (H53 : 2 ^ 53 <= 2 ^ 52 * 2 ^ e).
  { rewrite <- Z.pow_add_r by lia. apply Z.pow_le_mono_r; lia. }
  set (q := n / 2 ^ e) in *.
  assert (Hq' : q * 2 ^ e <= (q + 1) * 2 ^ e) by nia.
  assert (Hqe : 2 ^ 52 * 2 ^ e <= q * 2 ^ e) by nia.
  repeat match goal with |- context [if ?b then _ else _] => destruct b end;
    lia.
Qed.

Lemma int_exact f : minInt <= f <= maxInt -> int f = f.
Proof.
  intros [H1 H2]. unfold int.
  destruct (Z.leb_spec minInt f); [|lia].
  destruct (Z.leb_spec f maxInt); [reflexivity|lia].
Qed.

(** The bound that [cutoff] computes, for a limit that is not negative and
    a conversion that is exact on the limit or on the length. *)
Lemma cutoff_bound s m :
  0 <= m -> m < 2 ^ 53 \/ len s < 2 ^ 53 ->
  int (math_Min (float64 m) (float64 (len s))) = Z.min m (len s).
Proof.
  intros Hm Hex. pose proof (len_nonneg s) as Hs. unfold math_Min.
  assert (H63 : 2 ^ 53 < 2 ^ 63) by reflexivity.
  assert (Hmin : Z.min (float64 m) (float64 (len s)) = Z.min m (len s)).
  { destruct (Z.lt_ge_cases m (2 ^ 53)) as [Hm53|Hm53];
      destruct (Z.lt_ge_cases (len s) (2 ^ 53)) as [Hs53|Hs53].
    - rewrite !float64_exact by lia. reflexivity.
    - rewrite (float64_exact m) by lia.
      pose proof (float64_large _ Hs53). lia.
    - rewrite (float64_exact (len s)) by lia.
      pose proof (float64_large _ Hm53). lia.
    - lia. }
  rewrite Hmin. apply int_exact. unfold minInt, maxInt. lia.
Qed.

Lemma cutoff_ok s m :
  0 <= m -> m < 2 ^ 53 \/ len s < 2 ^ 53 ->
  cutoff s m = Ok (prefix (Z.to_nat (Z.min m (len s))) s).
Proof.
  intros Hm Hex. pose proof (len_nonneg s) as Hs.
  unfold cutoff. rewrite cutoff_bound by assumption.
  unfold slice_to.
  destruct (Z.leb_spec 0 (Z.min m (len s))); [|lia].
  destruct (Z.leb_spec (Z.min m (len s)) (len s)); [reflexivity|lia].
Qed.

(** * The field truncator: properties *)




(** The limits [preparePost] uses never make [cutoff] panic. *)
Lemma cutoff_const s m :
  0 <= m < 2 ^ 53 -> cutoff s m = Ok (prefix (Z.to_nat m) s).
Proof.
  intros Hm. rewrite cutoff_ok by lia.
  f_equal. unfold len.
  destruct (Z.le_ge_cases m (Z.of_nat (String.length s))) as [Hle|Hge].
  - rewrite Z.min_l by lia. reflexivity.
  - rewrite Z.min_r by lia. rewrite Nat2Z.id.
    rewrite !prefix_all by lia. reflexivity.
Qed.

(** * The service: properties *)

Section Properties.
Context `{Platform}.

(** ** Running the effects *)

Lemma bind_Ok {A B} (m : M A) (k : A -> M B) t a t1 :
  m t = (Ok a, t1) -> (m ≫= k) t = k a t1.
Proof. intros Hm. unfold mbind, M_bind, bind. rewrite Hm. reflexivity. Qed.

Lemma bind_Err {A B} (m : M A) (k : A -> M B) t e t1 :
  m t = (Err e, t1) -> (m ≫= k) t = (Err e, t1).
Proof. intros Hm. unfold mbind, M_bind, bind. rewrite Hm. reflexivity. Qed.

Lemma bind_Panic {A B} (m : M A) (k : A -> M B) t p t1 :
  m t = (Panic p, t1) -> (m ≫= k) t = (Panic p, t1).
Proof. intros Hm. unfold mbind, M_bind, bind. rewrite Hm. reflexivity. Qed.

Lemma bind_Ok_inv {A B} (m : M A) (k : A -> M B) t b t' :
  (m ≫= k) t = (Ok b, t') ->
  exists a t1, m t = (Ok a, t1) /\ k a t1 = (Ok b, t').
Proof.
  unfold mbind, M_bind, bind. destruct (m t) as [[a|e|p] t1]; intros Hk;
    try discriminate Hk.
  exists a, t1. split; [reflexivity|exact Hk].
Qed.

Lemma requests_app t1 t2 : requests (t1 ++ t2) = requests t1 ++ requests t2.
Proof.
  induction t1 as [|[n x|n|req] t1 IH]; simpl; rewrite ?IH; reflexivity.
Qed.

Lemma quiet_ret {A} (a : A) : quiet (ret a).
Proof. intros t r t' [= <- <-]. reflexivity. Qed.

Lemma quiet_fail {A} e : quiet (@fail _ A e).
Proof. intros t r t' [= <- <-]. reflexivity. Qed.

Lemma quiet_lift {A} (r : result A) : quiet (lift r).
Proof. intros t r' t' [= <- <-]. reflexivity. Qed.

Lemma quiet_call {A} (r : error + A) : quiet (call r).
Proof. destruct r; [apply quiet_fail|apply quiet_ret]. Qed.

Lemma quiet_parsed name text : quiet (emit (TemplateParsed name text)).
Proof.
  intros t r t' [= <- <-]. rewrite requests_app. simpl. apply app_nil_r.
Qed.

Lemma quiet_executed name : quiet (emit (TemplateExecuted name)).
Proof.
  intros t r t' [= <- <-]. rewrite requests_app. simpl. apply app_nil_r.
Qed.

Lemma quiet_bind {A B} (m : M A) (k : A -> M B) :
  quiet m -> (forall a, quiet (k a)) -> quiet (m ≫= k).
Proof.
  intros Hm Hk t r t'. unfold mbind, M_bind, bind.
  destruct (m t) as [[a|e|p] t1] eqn:Hmt; intros Hr.
  - rewrite (Hk a _ _ _ Hr). exact (Hm _ _ _ Hmt).
  - injection Hr as <- <-. exact (Hm _ _ _ Hmt).
  - injection Hr as <- <-. exact (Hm _ _ _ Hmt).
Qed.

Lemma quiet_if {A} (b : bool) (m1 m2 : M A) :
  quiet m1 -> quiet m2 -> quiet (if b then m1 else m2).
Proof. destruct b; auto. Qed.

Lemma quiet_pair {A B C} (k : A -> B -> M C) (x : A * B) :
  (forall a b, quiet (k a b)) -> quiet (let '(a, b) := x in k a b).
Proof. destruct x. auto. Qed.

Create HintDb quiet.
Hint Resolve quiet_ret quiet_fail quiet_lift quiet_call quiet_parsed
  quiet_executed quiet_if : quiet.

Ltac quiet :=
  repeat first
    [ apply quiet_bind; [|intros ?]
    | apply quiet_pair; intros ? ?
    | solve [auto with quiet] ].

(** ** The render closure *)

Lemma render_empty di buffer name t :
  render di buffer name "" t = (Ok (buffer, ""), t).
Proof. reflexivity. Qed.

Lemma render_compile_error di buffer name template e t :
  compile_error (name, template) = Some e ->
  render di buffer name template t
  = (Err e, t ++ [TemplateParsed name template]).
Proof.
  unfold compile_error, render. simpl.
  destruct (String.eqb template ""); [discriminate|].
  destruct (template_Parse name template) as [e'|T]; [|discriminate].
  intros [= ->]. reflexivity.
Qed.

Lemma render_compiles di buffer name template t :
  compile_error (name, template) = None ->
  exists b r t', render di buffer name template t = (Ok (b, r), t').
Proof.
  unfold compile_error, render. simpl.
  destruct (String.eqb template ""); [intros _; eauto|].
  destruct (template_Parse name template) as [e'|T]; [discriminate|].
  intros _. simpl.
  unfold mbind, M_bind, bind, emit, call, ret. simpl.
  destruct (template_Execute T di) as [w err]. eauto.
Qed.

(** What [render] returns does not depend on the buffer it is given nor
    on the trace so far. *)
Lemma render_value di buffer name template t b r t' :
  render di buffer name template t = (Ok (b, r), t') ->
  forall buffer0 t0, exists b0 t0',
    render di buffer0 name template t0 = (Ok (b0, r), t0').
Proof.
  unfold render.
  destruct (String.eqb template "").
  - intros [= <- <- <-] buffer0 t0. eauto.
  - simpl. unfold mbind, M_bind, bind, emit, call, ret, fail. simpl.
    destruct (template_Parse name template) as [e'|T]; simpl;
      [discriminate|].
    destruct (template_Execute T di) as [w err].
    intros [= <- <- <-] buffer0 t0. eauto.
Qed.

Lemma quiet_render di buffer name template :
  quiet (render di buffer name template).
Proof.
  unfold render. apply quiet_if; [|auto with quiet].
  quiet.
Qed.
Hint Resolve quiet_render : quiet.

Lemma quiet_prepareInstance s url alertID message level data hc :
  quiet (prepareInstance s url alertID message level data hc).
Proof. unfold prepareInstance. apply quiet_if; [auto with quiet|]. quiet. Qed.

Lemma quiet_preparePost s url alertID message level data hc :
  quiet (Service_preparePost s url alertID message level data hc).
Proof.
  unfold Service_preparePost.
  apply quiet_bind; [apply quiet_prepareInstance|intros [u i]].
  quiet. destruct (json_Marshal i); auto with quiet.
Qed.

Lemma quiet_Alert_request s url alertID message level data hc :
  quiet (Alert_request s url alertID message level data hc).
Proof.
  unfold Alert_request.
  apply quiet_bind; [apply quiet_preparePost|intros [u p]]. quiet.
Qed.

(** ** The severity switch *)

Lemma levels_ne :
  OK <> Info /\ OK <> Warning /\ OK <> Critical /\
  Info <> Warning /\ Info <> Critical /\ Warning <> Critical.
Proof.
  pose proof levels_distinct as Hnd.
  rewrite !NoDup_cons, !not_elem_of_cons in Hnd.
  destruct Hnd as ((? & ? & ? & _) & (? & ? & _) & (? & _) & _).
  repeat split; assumption.
Qed.

Lemma severity_Critical : severity Critical = 1.
Proof.
  destruct levels_ne as (? & ? & ? & ? & ? & ?). unfold severity.
  repeat match goal with
         | |- context [?a =? ?b] => destruct (Z.eqb_spec a b); try congruence
         end.
Qed.

(** C3: the severity switch is a function of the level alone, defined on
    every level: 5 for OK and for Info, 4 for Warning, 1 for Critical and
    0 for every other level. *)
Theorem severity_mapping :
  severity OK = 5 /\ severity Info = 5 /\
  severity Warning = 4 /\ severity Critical = 1 /\
  forall level : Z,
    level <> OK -> level <> Info -> level <> Warning -> level <> Critical ->
    severity level = 0.
Proof.
  destruct levels_ne as (? & ? & ? & ? & ? & ?).
  repeat split; try intros level ? ? ? ?; unfold severity;
    repeat match goal with
           | |- context [?a =? ?b] => destruct (Z.eqb_spec a b); try congruence
           end.
Qed.

(** ** Update *)

Lemma Update_several s x y l :
  exists e, Service_Update s (x :: y :: l) = (Err e, s).
Proof.
  unfold Service_Update.
  assert (Hl : (Z.of_nat (length (x :: y :: l)) =? 1) = false).
  { apply Z.eqb_neq. cbn [length]. lia. }
  rewrite Hl. eexists. reflexivity.
Qed.

(** C10: [Update] stores the new configuration when it is given exactly
    one value and that value is a [Config]; on every other argument it
    returns an error and the service keeps the configuration it had. *)
Theorem Update_one_Config (s : Service) (newConfig : list interface) :
  (forall c, newConfig = [of_Config c] ->
     Service_Update s newConfig = (Ok tt, NewService c)) /\
  ((forall c, newConfig <> [of_Config c]) ->
     exists e, Service_Update s newConfig = (Err e, s) /\
       Service_config (snd (Service_Update s newConfig)) = Service_config s) /\
  (forall s', Service_Update s newConfig = (Ok tt, s') ->
     exists c, newConfig = [of_Config c] /\ Service_config s' = c).
Proof.
  split; [|split].
  - intros c ->. reflexivity.
  - intros Hne.
    destruct newConfig as [|x [|y l]].
    + eexists; split; reflexivity.
    + destruct x as [c|T]; [destruct (Hne c eq_refl)|].
      eexists; split; reflexivity.
    + destruct (Update_several s x y l) as [e He].
      exists e. rewrite He. split; reflexivity.
  - intros s' Hs'.
    destruct newConfig as [|x [|y l]].
    + discriminate Hs'.
    + destruct x as [c|T]; [|discriminate Hs'].
      injection Hs' as <-. exists c. split; reflexivity.
    + destruct (Update_several s x y l) as [e He].
      rewrite He in Hs'. discriminate Hs'.
Qed.

(** ** The disabled service *)

Lemma prepareInstance_disabled s url alertID message level data hc t :
  Config.Enabled (Service_config s) = false ->
  prepareInstance s url alertID message level data hc t
  = (Err "service is not enabled", t).
Proof. intros Hd. unfold prepareInstance. rewrite Hd. reflexivity. Qed.

(** C7: when the configuration has [Enabled] false, [Alert] returns the
    error "service is not enabled" and leaves the trace as it was: no
    template is parsed, none is executed and no request is sent. *)
Theorem Alert_disabled s url alertID message level data hc t :
  Config.Enabled (Service_config s) = false ->
  Service_Alert s url alertID message level data hc t
  = (Err "service is not enabled", t).
Proof.
  intros Hd. unfold Service_Alert, Alert_request, Service_preparePost.
  do 3 (apply bind_Err). apply prepareInstance_disabled, Hd.
Qed.

(** ** Templates that do not compile *)

Lemma first_error_elem l nt e :
  nt ∈ l -> compile_error nt = Some e -> is_Some (first_error l).
Proof.
  intros Hin He. induction Hin as [nt l|nt nt' l Hin IH]; simpl.
  - rewrite He. eauto.
  - destruct (compile_error nt'); eauto.
Qed.

Lemma prepareInstance_compile_error s url alertID message level data hc
    t u e :
  Config.Enabled (Service_config s) = true ->
  url_Parse (if String.eqb url "" then Config.URL (Service_config s) else url)
  = inr u ->
  first_error (templates hc) = Some e ->
  exists t', prepareInstance s url alertID message level data hc t
             = (Err e, t').
Proof.
  intros Hen Hu. unfold prepareInstance. rewrite Hen. cbn [negb].
  cbv zeta. rewrite Hu.
  erewrite bind_Ok by reflexivity.
  unfold templates. cbn [first_error].
  repeat
    lazymatch goal with
    | |- context [compile_error (?n, ?tpl)] =>
        let Hc := fresh "Hc" in
        destruct (compile_error (n, tpl)) as [e'|] eqn:Hc;
        [ intros [= ->];
          rewrite (bind_Err _ _ _ _ _
                     (render_compile_error _ _ _ _ _ _ Hc));
          eexists; reflexivity
        | match goal with
          | |- _ -> exists _, (render ?di ?b _ _ ≫= _) ?t0 = _ =>
              let Hr := fresh "Hr" in
              destruct (render_compiles di b n tpl t0 Hc)
                as (? & ? & ? & Hr);
              rewrite (bind_Ok _ _ _ _ _ Hr); cbv beta iota
          end ]
    end.
  discriminate.
Qed.

(** C9: [render] on an empty template returns the empty string with no
    error and asks nothing of the template engine; on a template that is
    not empty it has the template compiled; and when a template of the
    override does not compile (the service being enabled and its URL
    valid), [Alert] returns the compile error of the first such template
    and sends no request. *)
Theorem empty_template_fast_path :
  (forall di buffer name t,
     render di buffer name "" t = (Ok (buffer, ""), t)) /\
  (forall di buffer name template t,
     template <> "" ->
     exists r t',
       render di buffer name template t
       = (r, t ++ TemplateParsed name template :: t')) /\
  (forall s url alertID message level data hc t u nt e,
     Config.Enabled (Service_config s) = true ->
     url_Parse
       (if String.eqb url "" then Config.URL (Service_config s) else url)
     = inr u ->
     nt ∈ templates hc -> compile_error nt = Some e ->
     exists e' t',
       first_error (templates hc) = Some e' /\
       Service_Alert s url alertID message level data hc t = (Err e', t') /\
       requests t' = requests t).
Proof.
  split; [|split].
  - intros. apply render_empty.
  - intros di buffer name template t Hne. unfold render.
    destruct (String.eqb_spec template ""); [contradiction|]. cbn [negb].
    unfold mbind, M_bind, bind, emit, call, ret, fail.
    destruct (template_Parse name template) as [e|T].
    + exists (Err e), []. reflexivity.
    + destruct (template_Execute T di) as [w err].
      eexists _, [_]. rewrite <- app_assoc. reflexivity.
  - intros s url alertID message level data hc t u nt e Hen Hu Hin He.
    destruct (first_error_elem _ _ _ Hin He) as [e' He'].
    destruct (prepareInstance_compile_error s url alertID message level
                data hc t u e' Hen Hu He') as [t' Ht'].
    exists e', t'. split; [exact He'|]. split.
    + unfold Service_Alert, Alert_request, Service_preparePost.
      do 3 (apply bind_Err). exact Ht'.
    + exact (quiet_prepareInstance _ _ _ _ _ _ _ _ _ _ Ht').
Qed.

(** ** The message key *)

Lemma lift_cutoff_inv s m t r t' :
  0 <= m < 2 ^ 53 ->
  lift (cutoff s m) t = (Ok r, t') -> r = prefix (Z.to_nat m) s /\ t' = t.
Proof.
  intros Hm. unfold lift. rewrite cutoff_const by assumption.
  intros [= <- <-]. split; reflexivity.
Qed.

(** The message key that [preparePost] puts in the alert, given what
    [render] returned for the message key template. *)
Lemma prepareInstance_MessageKey s url alertID message level data hc t u
    instance t' :
  prepareInstance s url alertID message level data hc t
  = (Ok (u, instance), t') ->
  exists buffer t0 b r t1,
    render (context alertID data) buffer "messageKey"
           (HandlerConfig.MessageKey hc) t0 = (Ok (b, r), t1) /\
    Alert.MessageKey instance
    = prefix 1024 (if String.eqb r "" then alertID else r).
Proof.
  unfold prepareInstance.
  destruct (Config.Enabled (Service_config s)); [|discriminate].
  cbn [negb]. cbv zeta. intros Hp.
  apply bind_Ok_inv in Hp as (u0 & t1 & _ & Hp).
  do 4 (apply bind_Ok_inv in Hp as ([? ?] & ? & _ & Hp); cbv beta iota in Hp).
  apply bind_Ok_inv in Hp as ([b r] & t5 & Hkey & Hp). cbv beta iota in Hp.
  do 5 (apply bind_Ok_inv in Hp as (? & ? & _ & Hp)).
  apply bind_Ok_inv in Hp as (k & ? & Hk & Hp).
  apply bind_Ok_inv in Hp as (? & ? & _ & Hp).
  apply lift_cutoff_inv in Hk as [-> _]; [|split; [lia|reflexivity]].
  injection Hp as _ <- _.
  eexists _, _, b, r, t5. split; [exact Hkey|]. reflexivity.
Qed.

(** C8 (amended): when the rendered message key is empty (as it is when
    the message key template is empty), the message key of the alert is
    the alert identifier cut to its first 1024 bytes; it is the alert
    identifier itself when that has at most 1024 bytes. *)
Theorem message_key_defaults_to_id s url alertID message level data hc t u
    instance t' :
  prepareInstance s url alertID message level data hc t
  = (Ok (u, instance), t') ->
  (HandlerConfig.MessageKey hc = "" \/
   exists buffer t0 b t1,
     render (context alertID data) buffer "messageKey"
            (HandlerConfig.MessageKey hc) t0 = (Ok (b, ""), t1)) ->
  Alert.MessageKey instance = prefix 1024 alertID /\
  (len alertID <= 1024 -> Alert.MessageKey instance = alertID).
Proof.
  intros Hp Hempty.
  assert (Hkey : Alert.MessageKey instance = prefix 1024 alertID).
  { destruct (prepareInstance_MessageKey _ _ _ _ _ _ _ _ _ _ _ Hp)
      as (buffer & t0 & b & r & t1 & Hr & ->).
    assert (Hr0 : exists b0 t0',
               render (context alertID data) buffer "messageKey"
                      (HandlerConfig.MessageKey hc) t0 = (Ok (b0, ""), t0')).
    { destruct Hempty as [Hnil|(buffer' & t0' & b' & t1' & Hr')].
      - rewrite Hnil. eexists _, _. apply render_empty.
      - exact (render_value _ _ _ _ _ _ _ _ Hr' buffer t0). }
    destruct Hr0 as (b0 & t0' & Hr0). rewrite Hr in Hr0.
    injection Hr0 as _ -> _. reflexivity. }
  split; [exact Hkey|].
  intros Hlen. rewrite Hkey. apply prefix_all. unfold len in Hlen. lia.
Qed.

(** ** The body of the POST *)

Lemma member_plain key value :
  json_plain value = true ->
  json_member key value
  = dquote +:+ key +:+ dquote +:+ ":" +:+ dquote +:+ value +:+ dquote.
Proof.
  intros Hv. unfold json_member. rewrite (json_string_plain _ Hv).
  reflexivity.
Qed.

(** C5: with the configuration enabled, its URL the one of the scenario
    and its source "cfg-src", an empty override, the alert "a1" with the
    message "boom" at level Critical, [preparePost] returns as body the
    JSON object of the scenario, member for member. *)
Theorem scenario_body (data : EventData.t any) t u :
  url_Parse "https://sn.example/api" = inr u ->
  Service_preparePost (NewService Sample.config) "" "a1" "boom" Critical
    data Sample.no_override t
  = (Ok (url_String u,
         Sample.json_text
           "{'source':'cfg-src','node':'','type':'','resource':'','metric_name':'','message_key':'a1','severity':'1','description':'boom'}"),
     t).
Proof.
  intros Hu.
  assert (Hi : prepareInstance (NewService Sample.config) "" "a1" "boom"
                 Critical data Sample.no_override t
               = (Ok (u, {| Alert.Source := "cfg-src"; Alert.Node := "";
                            Alert.Type_ := ""; Alert.Resource := "";
                            Alert.MetricName := "";
                            Alert.MessageKey := "a1";
                            Alert.Severity := "1";
                            Alert.Description := "boom" |}), t)).
  { unfold prepareInstance. cbn [Service_config NewService configValue
      Sample.config Config.Enabled Config.URL Config.Source negb
      Sample.no_override HandlerConfig.Source HandlerConfig.Node
      HandlerConfig.Type_ HandlerConfig.Resource HandlerConfig.MetricName
      HandlerConfig.MessageKey String.eqb].
    cbv zeta. rewrite Hu. erewrite bind_Ok by reflexivity.
    do 5 (erewrite bind_Ok by apply render_empty; cbv beta iota).
    rewrite severity_Critical.
    do 7 (erewrite bind_Ok by reflexivity). reflexivity. }
  unfold Service_preparePost. rewrite (bind_Ok _ _ _ _ _ Hi).
  cbv beta iota. unfold json_Marshal.
  cbn [Alert.Source Alert.Node Alert.Type_ Alert.Resource Alert.MetricName
       Alert.MessageKey Alert.Severity Alert.Description].
  rewrite !member_plain by reflexivity. reflexivity.
Qed.

(** ** Sending the request and reading the answer *)







(** ** Credentials *)

(** The [Authorization] header of the request that [Alert] builds is
    decided by the configuration alone. *)
Lemma Alert_request_Authorization s url alertID message level data hc t
    req t1 :
  Alert_request s url alertID message level data hc t = (Ok req, t1) ->
  Request.Header req !! "Authorization"
  = if negb (String.eqb (Config.Username (Service_config s)) "")
       && negb (String.eqb (Config.Password (Service_config s)) "")
    then Some ["Basic " +:+ basicAuth (Config.Username (Service_config s))
                                       (Config.Password (Service_config s))]
    else None.
Proof.
  unfold Alert_request. intros Hr.
  apply bind_Ok_inv in Hr as ([postUrl post] & t2 & _ & Hr).
  cbv beta iota in Hr.
  apply bind_Ok_inv in Hr as (req0 & t3 & Hnew & Hr).
  unfold http_NewRequest in Hnew.
  destruct (url_Parse postUrl) as [e|u0]; [discriminate Hnew|].
  injection Hnew as <- _. injection Hr as <- _.
  destruct (negb (String.eqb (Config.Username (Service_config s)) "")
            && negb (String.eqb (Config.Password (Service_config s)) "")).
  - unfold SetBasicAuth, Header_Set. cbn [Request.Header].
    apply lookup_insert_eq.
  - unfold Request_Header_Add, Header_Add. cbn [Request.Header].
    rewrite lookup_insert_ne by discriminate. apply lookup_empty.
Qed.

(** ** Errors of template execution *)

(** [render] returns what [Execute] wrote, and no error, whatever
    [Execute] returned. *)
Lemma render_drops_Execute_error di buffer name template t T :
  template <> "" ->
  template_Parse name template = inr T ->
  render di buffer name template t
  = (Ok (fst (template_Execute T di), fst (template_Execute T di)),
     t ++ [TemplateParsed name template] ++ [TemplateExecuted name]).
Proof.
  intros Hne HT. unfold render.
  destruct (String.eqb_spec template ""); [contradiction|]. cbn [negb].
  unfold mbind, M_bind, bind, emit, call, ret. rewrite HT.
  destruct (template_Execute T di) as [w err]. cbn [fst].
  rewrite <- app_assoc. reflexivity.
Qed.

End Properties.

Lemma severity_mapping_witness : @severity Sample.platform 7 = 0.
Proof.
  apply (@severity_mapping Sample.platform); discriminate.
Defined.

Lemma Update_one_Config_witness :
  exists e,
    @Service_Update (NewService Sample.config) [of_other "string"]
    = (Err e, NewService Sample.config).
Proof.
  destruct (proj1 (proj2 (Update_one_Config (NewService Sample.config)
                            [of_other "string"]))) as (e & He & _).
  - intros c. discriminate.
  - exists e. exact He.
Defined.

Lemma Alert_disabled_witness :
  @Service_Alert Sample.platform
    (NewService
       {| Config.Enabled := false; Config.URL := "https://sn.example/api";
          Config.Username := ""; Config.Password := "";
          Config.Source := "cfg-src";
          Config.Global := false; Config.StateChangesOnly := false |})
    "" "a1" "boom" 3 Sample.data Sample.no_override []
  = (Err "service is not enabled", []).
Proof.
  apply (@Alert_disabled Sample.platform). reflexivity.
Defined.

Lemma empty_template_fast_path_witness :
  exists e' t',
    @first_error Sample.platform (templates Sample.unclosed_resource) = Some e' /\
    @Service_Alert Sample.platform (NewService Sample.config)
      "" "a1" "boom" 3 Sample.data Sample.unclosed_resource [] = (Err e', t') /\
    @requests Sample.platform t' = [].
Proof.
  apply (proj2 (proj2 (@empty_template_fast_path Sample.platform))
           (NewService Sample.config) "" "a1" "boom" 3 Sample.data
           Sample.unclosed_resource [] "https://sn.example/api"
           ("resource", "{{.ID") "template: unclosed action").
  - reflexivity.
  - reflexivity.
  - unfold templates. simpl. set_solver.
  - reflexivity.
Defined.

(** C8, as the specification has it, fails for an alert identifier of more
    than 1024 bytes: with an empty message key template, the message key of
    the alert is not the identifier but its first 1024 bytes. *)
Lemma message_key_long_id :
  exists u instance,
    @prepareInstance Sample.platform (NewService Sample.config)
      "" (Sample.letters 1025) "boom" 3 Sample.data Sample.no_override []
    = (Ok (u, instance), []) /\
    HandlerConfig.MessageKey Sample.no_override = "" /\
    Alert.MessageKey instance <> Sample.letters 1025.
Proof.
  eexists _, _. split; [vm_compute; reflexivity|]. split; [reflexivity|].
  intros Heq. apply (f_equal String.length) in Heq.
  vm_compute in Heq. discriminate Heq.
Qed.

Lemma message_key_defaults_to_id_witness :
  exists u instance,
    @prepareInstance Sample.platform (NewService Sample.config)
      "" "a1" "boom" 3 Sample.data Sample.no_override []
    = (Ok (u, instance), []) /\
    Alert.MessageKey instance = "a1".
Proof.
  eexists _, _. split; [vm_compute; reflexivity|].
  refine (proj2 (@message_key_defaults_to_id Sample.platform
            (NewService Sample.config) "" "a1" "boom" 3 Sample.data
            Sample.no_override [] _ _ [] _ _) _).
  - vm_compute. reflexivity.
  - left. reflexivity.
  - vm_compute. discriminate.
Defined.

Lemma scenario_body_witness :
  @Service_preparePost Sample.platform (NewService Sample.config)
    "" "a1" "boom" 3 Sample.data Sample.no_override []
  = (Ok ("https://sn.example/api",
         Sample.json_text
           "{'source':'cfg-src','node':'','type':'','resource':'','metric_name':'','message_key':'a1','severity':'1','description':'boom'}"),
     []).
Proof.
  apply (@scenario_body Sample.platform Sample.data [] "https://sn.example/api").
  reflexivity.
Defined.


(** C1 (the code at the failing input): with the credentials "alice" and
    "secret" in the override and none in the configuration, the request
    that [Alert] sends carries no [Authorization] header. *)
Theorem override_credentials_unused :
  exists req,
    @Service_Alert Sample.platform (NewService Sample.config)
      "" "a1" "boom" 3 Sample.data Sample.with_credentials []
    = (Ok tt, [RequestSent req]) /\
    Request.Header req !! "Authorization" = None /\
    Request.Header req !! "Content-Type" = Some ["application/json"].
Proof.
  eexists. split; [vm_compute; reflexivity|].
  split; vm_compute; reflexivity.
Qed.

(** C2 (the code at the failing input): the node template compiles, its
    execution returns an error after it wrote "cpu-", and [Alert] returns
    nil all the same, having sent the alert with the node "cpu-". *)
Theorem execution_error_dropped :
  (exists T,
     Sample.parse "node" (HandlerConfig.Node Sample.missing_field) = inr T /\
     Sample.execute T (@context Sample.platform "a1" Sample.data)
     = ("cpu-", Some "can't evaluate field Missing")) /\
  (exists u instance t,
     @prepareInstance Sample.platform (NewService Sample.config)
       "" "a1" "boom" 3 Sample.data Sample.missing_field [] = (Ok (u, instance), t) /\
     Alert.Node instance = "cpu-") /\
  exists sent,
    @Service_Alert Sample.platform (NewService Sample.config)
      "" "a1" "boom" 3 Sample.data Sample.missing_field [] = (Ok tt, sent).
Proof.
  split; [|split].
  - eexists. split; vm_compute; reflexivity.
  - eexists _, _, _. split; vm_compute; reflexivity.
  - eexists. vm_compute. reflexivity.
Qed.

(** * Further scenarios of the specification, on the sample platform *)

(** The message key template "{{.ID}}-key" renders to "a1-key" for the
    alert "a1". *)
Example message_key_template :
  @render Sample.platform (@context Sample.platform "a1" Sample.data)
    "" "messageKey" "{{.ID}}-key" []
  = (Ok ("a1-key", "a1-key"),
     [TemplateParsed "messageKey" "{{.ID}}-key"; TemplateExecuted "messageKey"]).
Proof. reflexivity. Qed.

(** A description of more than 4000 bytes is cut to its first 4000. *)
Example long_description :
  exists u instance,
    @prepareInstance Sample.platform (NewService Sample.config)
      "" "a1" (Sample.letters 4100) 3 Sample.data Sample.no_override []
    = (Ok (u, instance), []) /\
    Alert.Description instance = Sample.letters 4000.
Proof.
  eexists _, _. split; vm_compute; reflexivity.
Qed.

(** A status of 500 with the body "oops", which is not JSON: the error
    names the status code and the body. *)
Example oops_answer :
  exists sent,
    @Service_Alert Sample.platform
      (NewService
         {| Config.Enabled := true; Config.URL := "https://sn.example/oops";
            Config.Username := ""; Config.Password := "";
            Config.Source := "cfg-src";
            Config.Global := false; Config.StateChangesOnly := false |})
      "" "a1" "boom" 3 Sample.data Sample.no_override []
    = (Err "failed to understand ServiceNow response. code: 500 content: oops",
       sent).
Proof. eexists. vm_compute. reflexivity. Qed.

(** Credentials of the configuration are sent as BASIC authentication. *)
Example configuration_credentials :
  exists req,
    @Service_Alert Sample.platform
      (NewService
         {| Config.Enabled := true; Config.URL := "https://sn.example/api";
            Config.Username := "alice"; Config.Password := "secret";
            Config.Source := "cfg-src";
            Config.Global := false; Config.StateChangesOnly := false |})
      "" "a1" "boom" 3 Sample.data Sample.no_override []
    = (Ok tt, [RequestSent req]) /\
    Request.Header req !! "Authorization" = Some ["Basic YWxpY2U6c2VjcmV0"].
Proof.
  eexists. split; vm_compute; reflexivity.
Qed.
